(** * The iOS text-input adapters of toga: a shallow embedding

    Two widget adapters are verified here:

    - [TextInput] (toga_iOS/widgets/textinput.py), over a native single-line
      text field, and
    - [MultilineTextInput] (toga_iOS/widgets/multilinetextinput.py), over a
      native multi-line text view.

    A Python string is held as the [string] of its UTF-8 bytes.

    Every Python method becomes a computation in the [method] monad below:
    it reads and mutates the adapter object ([self]) and either returns a
    value or raises.  A raised exception keeps the mutations made so far, as
    in Python.

    The native toolkit and the toga interface object are collaborators of the
    adapters, not part of them.  The native views are records of the
    properties the adapters read and write; the interface is a recorder of
    the callbacks invoked on it.  Layout constraints, colours, fonts and size
    hints are opaque toolkit objects that the adapters only hand over; they
    are left out. *)

From Stdlib Require Import String Ascii ZArith List Bool Lia.
Import ListNotations.

Local Open Scope string_scope.

(** ** Python values and builtins *)

Module Py.

(** The values a caller can hand to a dynamically typed setter. *)
Inductive value : Type :=
| VNone
| VBool (b : bool)
| VInt (n : Z)
| VStr (s : string)
| VObject (repr : string).

(** [isinstance(value, bool)]: only the two booleans; an [int] is not a
    [bool]. *)
Definition isinstance_bool (v : value) : bool :=
  match v with VBool _ => true | _ => false end.

(** [isinstance(value, str)]. *)
Definition isinstance_str (v : value) : bool :=
  match v with VStr _ => true | _ => false end.

(** Case mapping of one character: A..Z go to a..z, every other character
    stays.  The adapters compare [value.lower()] only with lower-case ASCII
    words that contain neither k nor i, the two ASCII letters that the
    lower-case form of a character outside ASCII can bring in; on these
    comparisons the ASCII mapping and [str.lower] agree. *)
Definition lower_ascii (c : ascii) : ascii :=
  let n := nat_of_ascii c in
  if (65 <=? n)%nat && (n <=? 90)%nat then ascii_of_nat (n + 32) else c.

(** [value.lower()]. *)
Fixpoint lower (s : string) : string :=
  match s with
  | EmptyString => EmptyString
  | String c s' => String (lower_ascii c) (lower s')
  end.

(** A byte from 128 to 191 continues a character that an earlier byte
    began. *)
Definition is_continuation (c : ascii) : bool :=
  let n := nat_of_ascii c in
  (128 <=? n)%nat && (n <=? 191)%nat.

(** How many continuation bytes the first byte of a character announces. *)
Definition announced (c : ascii) : nat :=
  let n := nat_of_ascii c in
  if (n <? 192)%nat then 0
  else if (n <? 224)%nat then 1
  else if (n <? 240)%nat then 2
  else if (n <? 248)%nat then 3
  else 0.

(** The number of characters in a string of bytes: a byte counts unless it
    is one of the [pending] continuation bytes of the character before it.
    (A continuation byte that continues nothing counts as a character of its
    own, so that only the empty string has no characters.) *)
Fixpoint characters (pending : nat) (s : string) : nat :=
  match s with
  | EmptyString => 0
  | String c s' =>
      if is_continuation c && (0 <? pending)%nat
      then characters (pending - 1) s'
      else S (characters (announced c) s')
  end.

(** [len(text)], a Python integer: the number of characters of the text,
    not of its bytes. *)
Definition len (s : string) : Z := Z.of_nat (characters 0 s).

(** [str(x)] of a native string property, which reads as [None] when the
    toolkit holds no string. *)
Definition str (x : option string) : string :=
  match x with
  | Some s => s
  | None => "None"
  end.

(** Truth value of a native string property: [None] and the empty string are false. *)
Definition truthy (x : option string) : bool :=
  match x with
  | Some s => negb (String.eqb s EmptyString)
  | None => false
  end.

Inductive exn : Type :=
| ValueError (msg : string).

(** [needle in haystack] for strings. *)
Fixpoint contains (needle haystack : string) : bool :=
  String.prefix needle haystack
  || match haystack with
     | EmptyString => false
     | String _ rest => contains needle rest
     end.

End Py.

(** ** Methods: state passing with exceptions *)

Inductive outcome (A : Type) : Type :=
| Return (a : A)
| Raise (e : Py.exn).

Arguments Return {A} a.
Arguments Raise {A} e.

Definition method (S A : Type) : Type := S -> outcome A * S.

Section MethodMonad.
Context {S : Type}.

Definition ret {A} (a : A) : method S A := fun self => (Return a, self).

Definition bind {A B} (m : method S A) (k : A -> method S B) : method S B :=
  fun self =>
    match m self with
    | (Return a, self') => k a self'
    | (Raise e, self') => (Raise e, self')
    end.

Definition raise {A} (e : Py.exn) : method S A := fun self => (Raise e, self).

(** Read an attribute. *)
Definition read {A} (f : S -> A) : method S A := fun self => (Return (f self), self).

(** Assign to attributes. *)
Definition assign (f : S -> S) : method S unit := fun self => (Return tt, f self).

(** The object an invocation leaves behind. *)
Definition after {A} (m : method S A) (self : S) : S := snd (m self).

(** What an invocation hands back. *)
Definition result {A} (m : method S A) (self : S) : outcome A := fst (m self).

End MethodMonad.

Declare Scope method_scope.
Delimit Scope method_scope with method.

Notation "x <- m ;; k" := (bind m (fun x => k))
  (at level 100, m at next level, right associativity) : method_scope.
Notation "m ;; k" := (bind m (fun _ => k))
  (at level 100, right associativity) : method_scope.

(** ** The toga interface object *)

Module Interface.

(** Callbacks the adapters invoke on the interface. *)
Inductive call : Type :=
| on_gain_focus
| on_lose_focus
| on_confirm
| on_change
| _value_changed.

(** The interface remembers every callback it received, oldest first. *)
Record t : Type := { calls : list call }.

Definition fresh : t := {| calls := [] |}.

Definition receive (c : call) (i : t) : t := {| calls := calls i ++ [c] |}.

Definition call_eqb (a b : call) : bool :=
  match a, b with
  | on_gain_focus, on_gain_focus
  | on_lose_focus, on_lose_focus
  | on_confirm, on_confirm
  | on_change, on_change
  | _value_changed, _value_changed => true
  | _, _ => false
  end.

(** How many times callback [c] was received. *)
Definition count (c : call) (i : t) : nat :=
  List.length (List.filter (call_eqb c) (calls i)).

End Interface.

(** ** The messages of the two string-valued setters

    Both adapters raise with the same two literals; [quoted] writes the
    double quotes the literals contain. *)

Definition quoted (s : string) : string :=
  String (ascii_of_nat 34) s ++ String (ascii_of_nat 34) EmptyString.

(** ['value can only be "none", "words", "sentences" or "allcharacters"'] *)
Definition autocapitalization_message : string :=
  "value can only be " ++ quoted "none" ++ ", " ++ quoted "words" ++ ", "
    ++ quoted "sentences" ++ " or " ++ quoted "allcharacters".

(** ['value can only be "Yes", "No" or "Default"'] *)
Definition inlineprediction_message : string :=
  "value can only be " ++ quoted "Yes" ++ ", " ++ quoted "No" ++ " or "
    ++ quoted "Default".

(** ** toga.constants *)

Inductive alignment : Type := LEFT | RIGHT | CENTER | JUSTIFY.

Definition alignment_eqb (a b : alignment) : bool :=
  match a, b with
  | LEFT, LEFT | RIGHT, RIGHT | CENTER, CENTER | JUSTIFY, JUSTIFY => true
  | _, _ => false
  end.

(** ** The native toolkit, as far as the adapters use it *)

Module UITextAutocorrectionType.
Inductive t : Type := Default | No | Yes.
Definition eqb (a b : t) : bool :=
  match a, b with
  | Default, Default | No, No | Yes, Yes => true
  | _, _ => false
  end.
End UITextAutocorrectionType.

Module UITextSpellCheckingType.
Inductive t : Type := Default | No | Yes.
Definition eqb (a b : t) : bool :=
  match a, b with
  | Default, Default | No, No | Yes, Yes => true
  | _, _ => false
  end.
End UITextSpellCheckingType.

Module UITextAutocapitalizationType.
Inductive t : Type := none | Words | Sentences | AllCharacters.
End UITextAutocapitalizationType.

Module UITextInlinePredictionType.
Inductive t : Type := Default | No | Yes.
End UITextInlinePredictionType.

Module UITextBorderStyle.
Inductive t : Type := none | Line | Bezel | RoundedRect.
End UITextBorderStyle.

(** The native alignment constants that [toga_iOS.libs.NSTextAlignment]
    converts toga's alignment values to. *)
Inductive NSTextAlignment_t : Type :=
| NSLeftTextAlignment
| NSRightTextAlignment
| NSCenterTextAlignment
| NSJustifiedTextAlignment
| NSNaturalTextAlignment.

(** [rubicon.objc.NSRange]: a structure of two [NSUInteger] fields, which
    are unsigned integers of 64 bits. *)
Module NSRange.

Definition NSUInteger_modulus : Z := 2 ^ 64.

(** What an [NSUInteger] field holds when given a Python integer: the
    integer modulo 2^64; a field does not refuse a negative integer, it
    wraps it around. *)
Definition NSUInteger (n : Z) : Z := n mod NSUInteger_modulus.

Record t : Type := fields { location : Z; length : Z }.

(** [NSRange(location, length)]. *)
Definition make (location length : Z) : t :=
  fields (NSUInteger location) (NSUInteger length).

End NSRange.

(** A label laid over a text control. *)
Module UILabel.

Record t : Type := {
  text : option string;
  hidden : bool;
  textAlignment : NSTextAlignment_t
}.

(** [UILabel.new()] / [UILabel.alloc().init()]: a new label has no text
    (its [text] reads as [None]) and is shown. *)
Definition new : t :=
  {| text := None; hidden := false; textAlignment := NSNaturalTextAlignment |}.

Definition set_text (v : string) (l : t) : t :=
  {| text := Some v; hidden := hidden l; textAlignment := textAlignment l |}.

Definition setHidden (b : bool) (l : t) : t :=
  {| text := text l; hidden := b; textAlignment := textAlignment l |}.

Definition isHidden (l : t) : bool := hidden l.

Definition set_textAlignment (a : NSTextAlignment_t) (l : t) : t :=
  {| text := text l; hidden := hidden l; textAlignment := a |}.

End UILabel.

(** The native single-line field. *)
Module UITextField.

Record t : Type := {
  text : string;
  placeholder : option string;
  enabled : bool;
  textAlignment : NSTextAlignment_t;
  borderStyle : UITextBorderStyle.t;
  autocorrectionType : UITextAutocorrectionType.t;
  spellCheckingType : UITextSpellCheckingType.t;
  autocapitalizationType : UITextAutocapitalizationType.t;
  inlinePredictionType : UITextInlinePredictionType.t
}.

(** [TogaTextField.new()]: no text, no placeholder, enabled; the behaviour
    settings start at the toolkit's defaults and [create] overrides the ones
    it cares about. *)
Definition new : t :=
  {| text := EmptyString;
     placeholder := None;
     enabled := true;
     textAlignment := NSNaturalTextAlignment;
     borderStyle := UITextBorderStyle.none;
     autocorrectionType := UITextAutocorrectionType.Default;
     spellCheckingType := UITextSpellCheckingType.Default;
     autocapitalizationType := UITextAutocapitalizationType.Sentences;
     inlinePredictionType := UITextInlinePredictionType.Default |}.

(** Assigning [text] from code stores the string; the field sends its
    editing-changed action for edits made by the user only. *)
Definition set_text (v : string) (n : t) : t :=
  {| text := v;
     placeholder := placeholder n;
     enabled := enabled n;
     textAlignment := textAlignment n;
     borderStyle := borderStyle n;
     autocorrectionType := autocorrectionType n;
     spellCheckingType := spellCheckingType n;
     autocapitalizationType := autocapitalizationType n;
     inlinePredictionType := inlinePredictionType n |}.

(** Assigning [placeholder]: the field keeps no empty placeholder, it
    turns the empty string into [None] (textinput.py, comment in [get_placeholder]). *)
Definition set_placeholder (v : string) (n : t) : t :=
  {| text := text n;
     placeholder := if String.eqb v EmptyString then None else Some v;
     enabled := enabled n;
     textAlignment := textAlignment n;
     borderStyle := borderStyle n;
     autocorrectionType := autocorrectionType n;
     spellCheckingType := spellCheckingType n;
     autocapitalizationType := autocapitalizationType n;
     inlinePredictionType := inlinePredictionType n |}.

Definition set_enabled (v : bool) (n : t) : t :=
  {| text := text n;
     placeholder := placeholder n;
     enabled := v;
     textAlignment := textAlignment n;
     borderStyle := borderStyle n;
     autocorrectionType := autocorrectionType n;
     spellCheckingType := spellCheckingType n;
     autocapitalizationType := autocapitalizationType n;
     inlinePredictionType := inlinePredictionType n |}.

Definition set_textAlignment (v : NSTextAlignment_t) (n : t) : t :=
  {| text := text n;
     placeholder := placeholder n;
     enabled := enabled n;
     textAlignment := v;
     borderStyle := borderStyle n;
     autocorrectionType := autocorrectionType n;
     spellCheckingType := spellCheckingType n;
     autocapitalizationType := autocapitalizationType n;
     inlinePredictionType := inlinePredictionType n |}.

Definition set_borderStyle (v : UITextBorderStyle.t) (n : t) : t :=
  {| text := text n;
     placeholder := placeholder n;
     enabled := enabled n;
     textAlignment := textAlignment n;
     borderStyle := v;
     autocorrectionType := autocorrectionType n;
     spellCheckingType := spellCheckingType n;
     autocapitalizationType := autocapitalizationType n;
     inlinePredictionType := inlinePredictionType n |}.

Definition set_autocorrectionType (v : UITextAutocorrectionType.t) (n : t) : t :=
  {| text := text n;
     placeholder := placeholder n;
     enabled := enabled n;
     textAlignment := textAlignment n;
     borderStyle := borderStyle n;
     autocorrectionType := v;
     spellCheckingType := spellCheckingType n;
     autocapitalizationType := autocapitalizationType n;
     inlinePredictionType := inlinePredictionType n |}.

Definition set_spellCheckingType (v : UITextSpellCheckingType.t) (n : t) : t :=
  {| text := text n;
     placeholder := placeholder n;
     enabled := enabled n;
     textAlignment := textAlignment n;
     borderStyle := borderStyle n;
     autocorrectionType := autocorrectionType n;
     spellCheckingType := v;
     autocapitalizationType := autocapitalizationType n;
     inlinePredictionType := inlinePredictionType n |}.

Definition set_autocapitalizationType
    (v : UITextAutocapitalizationType.t) (n : t) : t :=
  {| text := text n;
     placeholder := placeholder n;
     enabled := enabled n;
     textAlignment := textAlignment n;
     borderStyle := borderStyle n;
     autocorrectionType := autocorrectionType n;
     spellCheckingType := spellCheckingType n;
     autocapitalizationType := v;
     inlinePredictionType := inlinePredictionType n |}.

Definition set_inlinePredictionType
    (v : UITextInlinePredictionType.t) (n : t) : t :=
  {| text := text n;
     placeholder := placeholder n;
     enabled := enabled n;
     textAlignment := textAlignment n;
     borderStyle := borderStyle n;
     autocorrectionType := autocorrectionType n;
     spellCheckingType := spellCheckingType n;
     autocapitalizationType := autocapitalizationType n;
     inlinePredictionType := v |}.

End UITextField.

(** The native multi-line view.  [scrolled] lists the ranges handed to
    [scrollRangeToVisible], oldest first. *)
Module UITextView.

Record t : Type := {
  text : string;
  editable : bool;
  textAlignment : NSTextAlignment_t;
  autocorrectionType : UITextAutocorrectionType.t;
  spellCheckingType : UITextSpellCheckingType.t;
  autocapitalizationType : UITextAutocapitalizationType.t;
  inlinePredictionType : UITextInlinePredictionType.t;
  scrolled : list NSRange.t
}.

(** [TogaMultilineTextView.alloc().init()]: no text, editable, nothing
    scrolled yet. *)
Definition init : t :=
  {| text := EmptyString;
     editable := true;
     textAlignment := NSNaturalTextAlignment;
     autocorrectionType := UITextAutocorrectionType.Default;
     spellCheckingType := UITextSpellCheckingType.Default;
     autocapitalizationType := UITextAutocapitalizationType.Sentences;
     inlinePredictionType := UITextInlinePredictionType.Default;
     scrolled := [] |}.

(** Assigning [text] from code stores the string; the delegate's
    text-changed callback is for edits made by the user. *)
Definition set_text (v : string) (n : t) : t :=
  {| text := v;
     editable := editable n;
     textAlignment := textAlignment n;
     autocorrectionType := autocorrectionType n;
     spellCheckingType := spellCheckingType n;
     autocapitalizationType := autocapitalizationType n;
     inlinePredictionType := inlinePredictionType n;
     scrolled := scrolled n |}.

Definition set_editable (v : bool) (n : t) : t :=
  {| text := text n;
     editable := v;
     textAlignment := textAlignment n;
     autocorrectionType := autocorrectionType n;
     spellCheckingType := spellCheckingType n;
     autocapitalizationType := autocapitalizationType n;
     inlinePredictionType := inlinePredictionType n;
     scrolled := scrolled n |}.

Definition set_textAlignment (v : NSTextAlignment_t) (n : t) : t :=
  {| text := text n;
     editable := editable n;
     textAlignment := v;
     autocorrectionType := autocorrectionType n;
     spellCheckingType := spellCheckingType n;
     autocapitalizationType := autocapitalizationType n;
     inlinePredictionType := inlinePredictionType n;
     scrolled := scrolled n |}.

Definition set_autocorrectionType (v : UITextAutocorrectionType.t) (n : t) : t :=
  {| text := text n;
     editable := editable n;
     textAlignment := textAlignment n;
     autocorrectionType := v;
     spellCheckingType := spellCheckingType n;
     autocapitalizationType := autocapitalizationType n;
     inlinePredictionType := inlinePredictionType n;
     scrolled := scrolled n |}.

Definition set_spellCheckingType (v : UITextSpellCheckingType.t) (n : t) : t :=
  {| text := text n;
     editable := editable n;
     textAlignment := textAlignment n;
     autocorrectionType := autocorrectionType n;
     spellCheckingType := v;
     autocapitalizationType := autocapitalizationType n;
     inlinePredictionType := inlinePredictionType n;
     scrolled := scrolled n |}.

Definition set_autocapitalizationType
    (v : UITextAutocapitalizationType.t) (n : t) : t :=
  {| text := text n;
     editable := editable n;
     textAlignment := textAlignment n;
     autocorrectionType := autocorrectionType n;
     spellCheckingType := spellCheckingType n;
     autocapitalizationType := v;
     inlinePredictionType := inlinePredictionType n;
     scrolled := scrolled n |}.

Definition set_inlinePredictionType
    (v : UITextInlinePredictionType.t) (n : t) : t :=
  {| text := text n;
     editable := editable n;
     textAlignment := textAlignment n;
     autocorrectionType := autocorrectionType n;
     spellCheckingType := spellCheckingType n;
     autocapitalizationType := autocapitalizationType n;
     inlinePredictionType := v;
     scrolled := scrolled n |}.

Definition scrollRangeToVisible (r : NSRange.t) (n : t) : t :=
  {| text := text n;
     editable := editable n;
     textAlignment := textAlignment n;
     autocorrectionType := autocorrectionType n;
     spellCheckingType := spellCheckingType n;
     autocapitalizationType := autocapitalizationType n;
     inlinePredictionType := inlinePredictionType n;
     scrolled := scrolled n ++ [r] |}.

End UITextView.


(** ** toga_iOS/widgets/textinput.py *)

Module TextInput.

Local Open Scope method_scope.

(** The adapter with the objects it owns: the native field (which is its own
    delegate, [TogaTextField]), the interface it reports to and the error
    annotation. *)
Record t : Type := {
  interface : Interface.t;
  native : UITextField.t;
  error_label : UILabel.t
}.

Definition on_interface (f : Interface.t -> Interface.t) (self : t) : t :=
  {| interface := f (interface self);
     native := native self;
     error_label := error_label self |}.

Definition on_native (f : UITextField.t -> UITextField.t) (self : t) : t :=
  {| interface := interface self;
     native := f (native self);
     error_label := error_label self |}.

Definition on_error_label (f : UILabel.t -> UILabel.t) (self : t) : t :=
  {| interface := interface self;
     native := native self;
     error_label := f (error_label self) |}.

(** *** class TogaTextField: the delegate callbacks *)

Definition textFieldDidBeginEditing_ : method t unit :=
  assign (on_interface (Interface.receive Interface.on_gain_focus)).

Definition textFieldDidChange_ : method t unit :=
  assign (on_interface (Interface.receive Interface._value_changed)).

Definition textFieldDidEndEditing_ : method t unit :=
  assign (on_interface (Interface.receive Interface.on_lose_focus)).

Definition textFieldShouldReturn_ : method t bool :=
  assign (on_interface (Interface.receive Interface.on_confirm)) ;;
  ret true.

(** *** class TextInput *)

(** The error annotation that [add_error_label] makes: a warning sign,
    hidden at first. *)
Definition add_error_label : UILabel.t :=
  UILabel.set_text "⚠" (UILabel.setHidden true UILabel.new).

(** [create]: builds the adapter's objects for the interface it belongs to. *)
Definition create (interface : Interface.t) : t :=
  {| interface := interface;
     native :=
       UITextField.set_spellCheckingType UITextSpellCheckingType.Yes
         (UITextField.set_autocorrectionType UITextAutocorrectionType.Yes
            (UITextField.set_borderStyle UITextBorderStyle.RoundedRect
               UITextField.new));
     error_label := add_error_label |}.

Definition get_readonly : method t bool :=
  enabled <- read (fun self => UITextField.enabled (native self)) ;;
  ret (negb enabled).

Definition set_readonly (value : bool) : method t unit :=
  assign (on_native (UITextField.set_enabled (negb value))).

Definition get_placeholder : method t string :=
  placeholder <- read (fun self => UITextField.placeholder (native self)) ;;
  ret (Py.str (if Py.truthy placeholder then placeholder else Some EmptyString)).

Definition set_placeholder (value : string) : method t unit :=
  assign (on_native (UITextField.set_placeholder value)).

Definition get_value : method t string :=
  text <- read (fun self => UITextField.text (native self)) ;;
  ret (Py.str (Some text)).

Definition set_value (value : string) : method t unit :=
  assign (on_native (UITextField.set_text value)) ;;
  assign (on_interface (Interface.receive Interface._value_changed)).

Section Libs.

(** [toga_iOS.libs.NSTextAlignment], the conversion of a toga alignment to
    the native constant; it is declared outside the two adapters and is
    taken as given. *)
Variable NSTextAlignment : alignment -> NSTextAlignment_t.

Definition set_text_align (value : alignment) : method t unit :=
  assign (on_native (UITextField.set_textAlignment (NSTextAlignment value))) ;;
  if alignment_eqb value RIGHT
  then assign (on_error_label (UILabel.set_textAlignment (NSTextAlignment LEFT)))
  else assign (on_error_label (UILabel.set_textAlignment (NSTextAlignment RIGHT))).

End Libs.

Definition set_error (error_message : string) : method t unit :=
  assign (on_error_label (UILabel.setHidden false)).

Definition clear_error : method t unit :=
  assign (on_error_label (UILabel.setHidden true)).

Definition is_valid : method t bool :=
  read (fun self => UILabel.isHidden (error_label self)).

Definition set_autocorrect (value : Py.value) : method t unit :=
  match value with
  | Py.VBool b =>              (* isinstance(value, bool) *)
      if b
      then assign (on_native (UITextField.set_autocorrectionType
                                UITextAutocorrectionType.Yes))
      else assign (on_native (UITextField.set_autocorrectionType
                                UITextAutocorrectionType.No))
  | _ => raise (Py.ValueError "value can only be a boolean")
  end.

Definition get_autocorrect : method t bool :=
  a <- read (fun self => UITextField.autocorrectionType (native self)) ;;
  if UITextAutocorrectionType.eqb a UITextAutocorrectionType.Yes
  then ret true
  else ret false.

Definition set_spellchecker (value : Py.value) : method t unit :=
  match value with
  | Py.VBool b =>
      if b
      then assign (on_native (UITextField.set_spellCheckingType
                                UITextSpellCheckingType.Yes))
      else assign (on_native (UITextField.set_spellCheckingType
                                UITextSpellCheckingType.No))
  | _ => raise (Py.ValueError "value can only be a boolean")
  end.

Definition get_spellchecker : method t bool :=
  a <- read (fun self => UITextField.spellCheckingType (native self)) ;;
  if UITextSpellCheckingType.eqb a UITextSpellCheckingType.Yes
  then ret true
  else ret false.

Definition set_autocapitalization_type (value : Py.value) : method t unit :=
  match value with
  | Py.VStr s =>
      if String.eqb (Py.lower s) "none" then
        assign (on_native (UITextField.set_autocapitalizationType
                             UITextAutocapitalizationType.none))
      else if String.eqb (Py.lower s) "words" then
        assign (on_native (UITextField.set_autocapitalizationType
                             UITextAutocapitalizationType.Words))
      else if String.eqb (Py.lower s) "sentences" then
        assign (on_native (UITextField.set_autocapitalizationType
                             UITextAutocapitalizationType.Sentences))
      else if String.eqb (Py.lower s) "allcharacters" then
        assign (on_native (UITextField.set_autocapitalizationType
                             UITextAutocapitalizationType.AllCharacters))
      else
        raise (Py.ValueError autocapitalization_message)
  | _ => raise (Py.ValueError autocapitalization_message)
  end.

Definition set_inlineprediction_type (value : Py.value) : method t unit :=
  match value with
  | Py.VStr s =>
      if String.eqb (Py.lower s) "yes" then
        assign (on_native (UITextField.set_inlinePredictionType
                             UITextInlinePredictionType.Yes))
      else if String.eqb (Py.lower s) "no" then
        assign (on_native (UITextField.set_inlinePredictionType
                             UITextInlinePredictionType.No))
      else if String.eqb (Py.lower s) "default" then
        assign (on_native (UITextField.set_inlinePredictionType
                             UITextInlinePredictionType.Default))
      else
        raise (Py.ValueError inlineprediction_message)
  | _ => raise (Py.ValueError inlineprediction_message)
  end.

End TextInput.


(** ** toga_iOS/widgets/multilinetextinput.py *)

Module MultilineTextInput.

Local Open Scope method_scope.

(** The adapter with the objects it owns.  The native view is its own
    delegate ([TogaMultilineTextView]); [placeholder_label] is the one label
    that both the adapter and the delegate refer to.

    Modelled from the spec: [has_focus] is a property of the Widget base
    class, which is not among the sources; the spec describes it as an
    externally tracked flag holding the current focus state.  The toolkit
    changes it when the view gains or loses focus (see [gains_focus] and
    [resignFirstResponder] below). *)
Record t : Type := {
  interface : Interface.t;
  native : UITextView.t;
  placeholder_label : UILabel.t;
  has_focus : bool
}.

Definition on_interface (f : Interface.t -> Interface.t) (self : t) : t :=
  {| interface := f (interface self);
     native := native self;
     placeholder_label := placeholder_label self;
     has_focus := has_focus self |}.

Definition on_native (f : UITextView.t -> UITextView.t) (self : t) : t :=
  {| interface := interface self;
     native := f (native self);
     placeholder_label := placeholder_label self;
     has_focus := has_focus self |}.

Definition on_placeholder_label (f : UILabel.t -> UILabel.t) (self : t) : t :=
  {| interface := interface self;
     native := native self;
     placeholder_label := f (placeholder_label self);
     has_focus := has_focus self |}.

Definition focus (b : bool) (self : t) : t :=
  {| interface := interface self;
     native := native self;
     placeholder_label := placeholder_label self;
     has_focus := b |}.

(** *** class TogaMultilineTextView: the delegate callbacks *)

Definition textViewDidBeginEditing_ : method t unit :=
  assign (on_placeholder_label (UILabel.setHidden true)).

(** [text_view] is the view the callback belongs to, that is [native]. *)
Definition textViewDidEndEditing_ : method t unit :=
  text <- read (fun self => UITextView.text (native self)) ;;
  assign (on_placeholder_label (UILabel.setHidden (0 <? Py.len text)%Z)).

Definition textViewDidChange_ : method t unit :=
  assign (on_interface (Interface.receive Interface.on_change)).

(** *** The toolkit's side of focus and editing

    The toolkit tells the delegate that editing began once the view has
    become first responder, and that editing ended once it no longer is;
    the user can edit the text only while the view has focus. *)

Definition gains_focus : method t unit :=
  focused <- read has_focus ;;
  if focused then ret tt
  else (assign (focus true) ;; textViewDidBeginEditing_).

Definition resignFirstResponder : method t unit :=
  focused <- read has_focus ;;
  if focused then (assign (focus false) ;; textViewDidEndEditing_)
  else ret tt.

Definition user_edits (text : string) : method t unit :=
  focused <- read has_focus ;;
  if focused
  then (assign (on_native (UITextView.set_text text)) ;; textViewDidChange_)
  else ret tt.

(** [pointInside_withEvent_]; [point_inside] is the answer of the
    superclass for the touched point. *)
Definition pointInside_withEvent_ (point_inside : bool) : method t bool :=
  (if negb point_inside then resignFirstResponder else ret tt) ;;
  ret point_inside.

(** *** class MultilineTextInput *)

Definition create (interface : Interface.t) : t :=
  {| interface := interface;
     native :=
       UITextView.set_spellCheckingType UITextSpellCheckingType.Yes
         (UITextView.set_autocorrectionType UITextAutocorrectionType.Yes
            UITextView.init);
     placeholder_label := UILabel.new;
     has_focus := false |}.

Definition get_placeholder : method t string :=
  text <- read (fun self => UILabel.text (placeholder_label self)) ;;
  ret (Py.str text).

Definition set_placeholder (value : string) : method t unit :=
  assign (on_placeholder_label (UILabel.set_text value)).

Definition get_readonly : method t bool :=
  editable <- read (fun self => UITextView.editable (native self)) ;;
  ret (negb editable).

Definition set_readonly (value : bool) : method t unit :=
  assign (on_native (UITextView.set_editable (negb value))).

Definition get_value : method t string :=
  text <- read (fun self => UITextView.text (native self)) ;;
  ret (Py.str (Some text)).

Definition set_value (value : string) : method t unit :=
  assign (on_native (UITextView.set_text value)) ;;
  focused <- read has_focus ;;
  text <- read (fun self => UITextView.text (native self)) ;;
  assign (on_placeholder_label
            (UILabel.setHidden (focused || (0 <? Py.len text)%Z))) ;;
  assign (on_interface (Interface.receive Interface.on_change)).

Definition scroll_to_bottom : method t unit :=
  text <- read (fun self => UITextView.text (native self)) ;;
  assign (on_native
            (UITextView.scrollRangeToVisible
               (NSRange.make (Py.len text - 1) 1))).

Definition scroll_to_top : method t unit :=
  assign (on_native (UITextView.scrollRangeToVisible (NSRange.make 0 0))).

Definition set_autocorrect (value : Py.value) : method t unit :=
  match value with
  | Py.VBool b =>              (* isinstance(value, bool) *)
      if b
      then assign (on_native (UITextView.set_autocorrectionType
                                UITextAutocorrectionType.Yes))
      else assign (on_native (UITextView.set_autocorrectionType
                                UITextAutocorrectionType.No))
  | _ => raise (Py.ValueError "value can only be a boolean")
  end.

Definition get_autocorrect : method t bool :=
  a <- read (fun self => UITextView.autocorrectionType (native self)) ;;
  if UITextAutocorrectionType.eqb a UITextAutocorrectionType.Yes
  then ret true
  else ret false.

Definition set_spellchecker (value : Py.value) : method t unit :=
  match value with
  | Py.VBool b =>
      if b
      then assign (on_native (UITextView.set_spellCheckingType
                                UITextSpellCheckingType.Yes))
      else assign (on_native (UITextView.set_spellCheckingType
                                UITextSpellCheckingType.No))
  | _ => raise (Py.ValueError "value can only be a boolean")
  end.

Definition get_spellchecker : method t bool :=
  a <- read (fun self => UITextView.spellCheckingType (native self)) ;;
  if UITextSpellCheckingType.eqb a UITextSpellCheckingType.Yes
  then ret true
  else ret false.

Definition set_autocapitalization_type (value : Py.value) : method t unit :=
  match value with
  | Py.VStr s =>
      if String.eqb (Py.lower s) "none" then
        assign (on_native (UITextView.set_autocapitalizationType
                             UITextAutocapitalizationType.none))
      else if String.eqb (Py.lower s) "words" then
        assign (on_native (UITextView.set_autocapitalizationType
                             UITextAutocapitalizationType.Words))
      else if String.eqb (Py.lower s) "sentences" then
        assign (on_native (UITextView.set_autocapitalizationType
                             UITextAutocapitalizationType.Sentences))
      else if String.eqb (Py.lower s) "allcharacters" then
        assign (on_native (UITextView.set_autocapitalizationType
                             UITextAutocapitalizationType.AllCharacters))
      else
        raise (Py.ValueError autocapitalization_message)
  | _ => raise (Py.ValueError autocapitalization_message)
  end.

Definition set_inlineprediction_type (value : Py.value) : method t unit :=
  match value with
  | Py.VStr s =>
      if String.eqb (Py.lower s) "yes" then
        assign (on_native (UITextView.set_inlinePredictionType
                             UITextInlinePredictionType.Yes))
      else if String.eqb (Py.lower s) "no" then
        assign (on_native (UITextView.set_inlinePredictionType
                             UITextInlinePredictionType.No))
      else if String.eqb (Py.lower s) "default" then
        assign (on_native (UITextView.set_inlinePredictionType
                             UITextInlinePredictionType.Default))
      else
        raise (Py.ValueError inlineprediction_message)
  | _ => raise (Py.ValueError inlineprediction_message)
  end.

(** *** What can be seen of the placeholder *)

Definition placeholder_visible (self : t) : bool :=
  negb (UILabel.isHidden (placeholder_label self)).

Definition text_is_empty (self : t) : bool :=
  String.eqb (UITextView.text (native self)) EmptyString.

(** *** Histories of an adapter

    Everything that can happen to a created adapter: a call of one of its
    methods by the application, or one of the toolkit's events. *)

Inductive op : Type :=
| SetValue (value : string)
| SetPlaceholder (value : string)
| SetReadonly (value : bool)
| SetTextAlign (value : alignment)
| ScrollToBottom
| ScrollToTop
| SetAutocorrect (value : Py.value)
| SetSpellchecker (value : Py.value)
| SetAutocapitalizationType (value : Py.value)
| SetInlinepredictionType (value : Py.value)
| GainsFocus
| LosesFocus
| UserEdits (text : string)
| PointInside (point_inside : bool).

Section Libs.

(** [toga_iOS.libs.NSTextAlignment], taken as given. *)
Variable NSTextAlignment : alignment -> NSTextAlignment_t.

Definition set_text_align (value : alignment) : method t unit :=
  assign (on_native (UITextView.set_textAlignment (NSTextAlignment value))).

(** One operation; an exception it raises is caught by the caller and the
    adapter lives on. *)
Definition step (o : op) (self : t) : t :=
  match o with
  | SetValue v => after (set_value v) self
  | SetPlaceholder v => after (set_placeholder v) self
  | SetReadonly v => after (set_readonly v) self
  | SetTextAlign v => after (set_text_align v) self
  | ScrollToBottom => after scroll_to_bottom self
  | ScrollToTop => after scroll_to_top self
  | SetAutocorrect v => after (set_autocorrect v) self
  | SetSpellchecker v => after (set_spellchecker v) self
  | SetAutocapitalizationType v => after (set_autocapitalization_type v) self
  | SetInlinepredictionType v => after (set_inlineprediction_type v) self
  | GainsFocus => after gains_focus self
  | LosesFocus => after resignFirstResponder self
  | UserEdits s => after (user_edits s) self
  | PointInside b => after (pointInside_withEvent_ b) self
  end.

Definition run (ops : list op) (self : t) : t :=
  fold_left (fun self o => step o self) ops self.

End Libs.

End MultilineTextInput.


(** ** Vocabulary of the statements *)

(** The values [set_autocapitalization_type] is documented to take. *)
Definition autocapitalization_words : list string :=
  ["none"; "words"; "sentences"; "allcharacters"].

(** [v] is a string that is one of those words when case is ignored. *)
Definition accepted_autocapitalization (v : Py.value) : Prop :=
  exists s, v = Py.VStr s /\ In (Py.lower s) autocapitalization_words.

(** The placeholder is shown exactly when there is no text and no focus. *)
Definition placeholder_invariant (self : MultilineTextInput.t) : Prop :=
  MultilineTextInput.placeholder_visible self
  = MultilineTextInput.text_is_empty self
    && negb (MultilineTextInput.has_focus self).

(** The words [set_inlineprediction_type] compares with. *)
Definition inlineprediction_words : list string := ["yes"; "no"; "default"].

Definition accepted_inlineprediction (v : Py.value) : Prop :=
  exists s, v = Py.VStr s /\ In (Py.lower s) inlineprediction_words.

(** ** Histories of the single-line adapter *)

Module TextInputHistory.

Local Open Scope method_scope.

(** The user changed the text of the field: the toolkit holds the new text
    and sends the editing-changed action, which [create] directs to
    [textFieldDidChange_]. *)
Definition user_edits (text : string) : method TextInput.t unit :=
  assign (TextInput.on_native (UITextField.set_text text)) ;;
  TextInput.textFieldDidChange_.

(** A call of a method by the application, or a callback of the toolkit. *)
Inductive op : Type :=
| SetReadonly (value : bool)
| SetPlaceholder (value : string)
| SetValue (value : string)
| SetTextAlign (value : alignment)
| SetError (error_message : string)
| ClearError
| SetAutocorrect (value : Py.value)
| SetSpellchecker (value : Py.value)
| SetAutocapitalizationType (value : Py.value)
| SetInlinepredictionType (value : Py.value)
| BeginsEditing
| UserEdits (text : string)
| EndsEditing
| ReturnKey.

Section Libs.

Variable NSTextAlignment : alignment -> NSTextAlignment_t.

Definition step (o : op) (self : TextInput.t) : TextInput.t :=
  match o with
  | SetReadonly v => after (TextInput.set_readonly v) self
  | SetPlaceholder v => after (TextInput.set_placeholder v) self
  | SetValue v => after (TextInput.set_value v) self
  | SetTextAlign v => after (TextInput.set_text_align NSTextAlignment v) self
  | SetError m => after (TextInput.set_error m) self
  | ClearError => after TextInput.clear_error self
  | SetAutocorrect v => after (TextInput.set_autocorrect v) self
  | SetSpellchecker v => after (TextInput.set_spellchecker v) self
  | SetAutocapitalizationType v =>
      after (TextInput.set_autocapitalization_type v) self
  | SetInlinepredictionType v =>
      after (TextInput.set_inlineprediction_type v) self
  | BeginsEditing => after TextInput.textFieldDidBeginEditing_ self
  | UserEdits s => after (user_edits s) self
  | EndsEditing => after TextInput.textFieldDidEndEditing_ self
  | ReturnKey => after TextInput.textFieldShouldReturn_ self
  end.

Definition run (ops : list op) (self : TextInput.t) : TextInput.t :=
  fold_left (fun self o => step o self) ops self.

End Libs.

(** What a reader of a history expects to find afterwards. *)

(** The text an operation writes, if it writes one. *)
Definition writes_value (o : op) : option string :=
  match o with
  | SetValue v | UserEdits v => Some v
  | _ => None
  end.

(** The last text written, or the one there was. *)
Definition value_after (ops : list op) (value : string) : string :=
  fold_left
    (fun v o => match writes_value o with Some w => w | None => v end)
    ops value.

(** Valid unless the last of [set_error] and [clear_error] was
    [set_error]. *)
Definition valid_after (ops : list op) (valid : bool) : bool :=
  fold_left
    (fun v o =>
       match o with
       | SetError _ => false
       | ClearError => true
       | _ => v
       end)
    ops valid.

(** What the interface should hear of an operation. *)
Definition heard (o : op) : list Interface.call :=
  match o with
  | SetValue _ | UserEdits _ => [Interface._value_changed]
  | BeginsEditing => [Interface.on_gain_focus]
  | EndsEditing => [Interface.on_lose_focus]
  | ReturnKey => [Interface.on_confirm]
  | _ => []
  end.

End TextInputHistory.

(** ** Fonts and colours of the multi-line adapter

    [create], [set_color] and [set_font] of the multi-line adapter keep the
    placeholder label looking like the text.  Fonts and colours are the
    toolkit's own objects; the four properties that hold them are written by
    these three methods only and stand here as a record of their own, beside
    [MultilineTextInput.t]. *)

Module MultilineStyle.

Local Open Scope method_scope.

Section Toolkit.

(** The toolkit's fonts and colours, and toga's. *)
Variables Font Color TogaFont TogaColor : Type.

(** [toga_iOS.colors.native_color]. *)
Variable native_color : TogaColor -> Color.

(** [font._impl.native]. *)
Variable impl_native : TogaFont -> Font.

Record t : Type := {
  native_font : Font;
  native_textColor : Color;
  placeholder_label_font : Font;
  placeholder_label_textColor : Color
}.

(** [create]: the label takes the font the new view has; the colours are
    the toolkit's, whatever they are. *)
Definition create (view : Font * Color) (label_textColor : Color) : t :=
  {| native_font := fst view;
     native_textColor := snd view;
     placeholder_label_font := fst view;
     placeholder_label_textColor := label_textColor |}.

Definition set_color (value : TogaColor) : method t unit :=
  let color := native_color value in
  assign (fun self =>
            {| native_font := native_font self;
               native_textColor := color;
               placeholder_label_font := placeholder_label_font self;
               placeholder_label_textColor := placeholder_label_textColor self |}) ;;
  assign (fun self =>
            {| native_font := native_font self;
               native_textColor := native_textColor self;
               placeholder_label_font := placeholder_label_font self;
               placeholder_label_textColor := color |}).

Definition set_font (font : TogaFont) : method t unit :=
  let native_font' := impl_native font in
  assign (fun self =>
            {| native_font := native_font';
               native_textColor := native_textColor self;
               placeholder_label_font := placeholder_label_font self;
               placeholder_label_textColor := placeholder_label_textColor self |}) ;;
  assign (fun self =>
            {| native_font := native_font self;
               native_textColor := native_textColor self;
               placeholder_label_font := native_font';
               placeholder_label_textColor := placeholder_label_textColor self |}).

Inductive op : Type :=
| SetColor (value : TogaColor)
| SetFont (font : TogaFont).

Definition step (o : op) (self : t) : t :=
  match o with
  | SetColor v => after (set_color v) self
  | SetFont f => after (set_font f) self
  end.

Definition run (ops : list op) (self : t) : t :=
  fold_left (fun self o => step o self) ops self.

End Toolkit.

Arguments native_font {Font Color} _.
Arguments native_textColor {Font Color} _.
Arguments placeholder_label_font {Font Color} _.
Arguments placeholder_label_textColor {Font Color} _.
Arguments create {Font Color} view label_textColor.
Arguments SetColor {TogaFont TogaColor} value.
Arguments SetFont {TogaFont TogaColor} font.
Arguments step {Font Color TogaFont TogaColor} native_color impl_native o self.
Arguments run {Font Color TogaFont TogaColor} native_color impl_native ops self.

End MultilineStyle.

(** * Properties *)

(** ** Reading and writing the text *)

Lemma count_receive (c c' : Interface.call) (i : Interface.t) :
  Interface.count c (Interface.receive c' i)
  = (Interface.count c i + if Interface.call_eqb c c' then 1 else 0)%nat.
Proof.
  unfold Interface.count, Interface.receive; cbn [Interface.calls].
  rewrite filter_app, length_app. cbn [filter].
  destruct (Interface.call_eqb c c'); reflexivity.
Qed.

(** C2: on either adapter [set_value(s)] returns normally, the interface
    receives exactly one more callback, the change notification
    ([_value_changed] on the single-line adapter, [on_change] on the
    multi-line one), so that the number of change notifications goes up by
    one, and [get_value()] then returns [s]. *)
Theorem set_value_notifies_once_then_get_value
    (s : string) (single : TextInput.t) (multi : MultilineTextInput.t) :
  let single' := after (TextInput.set_value s) single in
  let multi' := after (MultilineTextInput.set_value s) multi in
  (result (TextInput.set_value s) single = Return tt
   /\ Interface.calls (TextInput.interface single')
      = (Interface.calls (TextInput.interface single)
         ++ [Interface._value_changed])%list
   /\ Interface.count Interface._value_changed (TextInput.interface single')
      = S (Interface.count Interface._value_changed (TextInput.interface single))
   /\ TextInput.get_value single' = (Return s, single'))
  /\
  (result (MultilineTextInput.set_value s) multi = Return tt
   /\ Interface.calls (MultilineTextInput.interface multi')
      = (Interface.calls (MultilineTextInput.interface multi)
         ++ [Interface.on_change])%list
   /\ Interface.count Interface.on_change (MultilineTextInput.interface multi')
      = S (Interface.count Interface.on_change
             (MultilineTextInput.interface multi))
   /\ MultilineTextInput.get_value multi' = (Return s, multi')).
Proof.
  cbv zeta.
  split; (split; [reflexivity | split; [reflexivity | split; [| reflexivity]]]).
  - change (TextInput.interface (after (TextInput.set_value s) single))
      with (Interface.receive Interface._value_changed (TextInput.interface single)).
    rewrite count_receive. cbn. apply Nat.add_1_r.
  - change (MultilineTextInput.interface
              (after (MultilineTextInput.set_value s) multi))
      with (Interface.receive Interface.on_change
              (MultilineTextInput.interface multi)).
    rewrite count_receive. cbn. apply Nat.add_1_r.
Qed.

(** ** Alignment of the error annotation *)

(** C3: after [set_text_align(a)] on the single-line adapter the error
    label is aligned to the native LEFT when [a] is RIGHT and to the native
    RIGHT for the three other alignment values; the field itself takes the
    native form of [a]. *)
Theorem set_text_align_mirrors_error_label
    (NSTextAlignment : alignment -> NSTextAlignment_t)
    (a : alignment) (self : TextInput.t) :
  let self' := after (TextInput.set_text_align NSTextAlignment a) self in
  result (TextInput.set_text_align NSTextAlignment a) self = Return tt
  /\ UILabel.textAlignment (TextInput.error_label self')
     = match a with
       | RIGHT => NSTextAlignment LEFT
       | LEFT | CENTER | JUSTIFY => NSTextAlignment RIGHT
       end
  /\ UITextField.textAlignment (TextInput.native self') = NSTextAlignment a.
Proof.
  destruct a; repeat split.
Qed.

(** ** The error annotation *)

(** C6: whatever the message, [is_valid()] is false after [set_error] and
    true after [clear_error]; and [set_error] does the same with any two
    messages. *)
Theorem set_error_clear_error_is_valid (m m' : string) (self : TextInput.t) :
  result (TextInput.set_error m ;; TextInput.is_valid)%method self = Return false
  /\ result (TextInput.clear_error ;; TextInput.is_valid)%method self = Return true
  /\ result (TextInput.set_error m ;; TextInput.clear_error ;; TextInput.is_valid)%method
       self = Return true
  /\ TextInput.set_error m self = TextInput.set_error m' self.
Proof.
  repeat split.
Qed.

(** ** The placeholder of the single-line adapter *)

Lemma get_placeholder_of_stored (self : TextInput.t) :
  result TextInput.get_placeholder self
  = Return match UITextField.placeholder (TextInput.native self) with
           | Some s => s
           | None => EmptyString
           end.
Proof.
  unfold TextInput.get_placeholder, result, bind, read, ret; cbn.
  destruct (UITextField.placeholder (TextInput.native self)) as [s|]; cbn;
    [ destruct (String.eqb_spec s EmptyString); subst | ]; reflexivity.
Qed.

(** C7: [set_placeholder("")] leaves the native placeholder absent, and
    [get_placeholder()] then returns the empty string. *)
Theorem set_empty_placeholder_get_placeholder (self : TextInput.t) :
  let self' := after (TextInput.set_placeholder EmptyString) self in
  UITextField.placeholder (TextInput.native self') = None
  /\ TextInput.get_placeholder self' = (Return EmptyString, self').
Proof.
  split; reflexivity.
Qed.

(** The round trip holds for every placeholder, not only the empty one. *)
Lemma set_placeholder_get_placeholder (s : string) (self : TextInput.t) :
  result (TextInput.set_placeholder s ;; TextInput.get_placeholder)%method self
  = Return s.
Proof.
  unfold TextInput.set_placeholder, TextInput.get_placeholder, result, bind,
    read, ret, assign; cbn.
  destruct (String.eqb_spec s EmptyString) as [->|ne]; cbn; [reflexivity|].
  destruct (String.eqb_spec s EmptyString); [contradiction | reflexivity].
Qed.

(** ** The return key *)

(** C8: the return-key callback hands [on_confirm] to the interface, once,
    touches nothing else, and answers true in every state. *)
Theorem textFieldShouldReturn_confirms_and_handles (self : TextInput.t) :
  let self' := after TextInput.textFieldShouldReturn_ self in
  result TextInput.textFieldShouldReturn_ self = Return true
  /\ Interface.calls (TextInput.interface self')
     = (Interface.calls (TextInput.interface self) ++ [Interface.on_confirm])%list
  /\ TextInput.native self' = TextInput.native self
  /\ TextInput.error_label self' = TextInput.error_label self.
Proof.
  repeat split.
Qed.

(** ** The behaviour flags *)

(** The chain of comparisons in [set_autocapitalization_type] falls through
    to its last branch exactly for the strings that are not accepted. *)
Lemma lower_in_words (s : string) :
  In (Py.lower s) autocapitalization_words
  <-> (String.eqb (Py.lower s) "none"
       || String.eqb (Py.lower s) "words"
       || String.eqb (Py.lower s) "sentences"
       || String.eqb (Py.lower s) "allcharacters") = true.
Proof.
  unfold autocapitalization_words; cbn [In].
  rewrite !orb_true_iff, !String.eqb_eq.
  intuition congruence.
Qed.

Lemma accepted_autocapitalization_str (s : string) :
  accepted_autocapitalization (Py.VStr s)
  <-> In (Py.lower s) autocapitalization_words.
Proof.
  split.
  - intros (s' & e & i). injection e as <-. exact i.
  - intros i. exists s. split; [reflexivity | exact i].
Qed.

Lemma not_accepted_autocapitalization (v : Py.value) :
  Py.isinstance_str v = false -> ~ accepted_autocapitalization v.
Proof.
  intros e (s & -> & _). discriminate e.
Qed.

(** Both adapters do the same on their own native view; the case analysis
    on the argument is shared. *)
Ltac by_autocapitalization_cases v :=
  destruct v as [ | b | n | s | r ];
  try (split;
       [ split;
         [ intros a; exfalso;
           revert a; apply not_accepted_autocapitalization; reflexivity
         | discriminate ]
       | intros _; reflexivity ]);
  rewrite accepted_autocapitalization_str, lower_in_words;
  cbn;
  destruct (String.eqb (Py.lower s) "none"); cbn;
  [ split; [ split; reflexivity | intros n; elim n; reflexivity ] | ];
  destruct (String.eqb (Py.lower s) "words"); cbn;
  [ split; [ split; reflexivity | intros n; elim n; reflexivity ] | ];
  destruct (String.eqb (Py.lower s) "sentences"); cbn;
  [ split; [ split; reflexivity | intros n; elim n; reflexivity ] | ];
  destruct (String.eqb (Py.lower s) "allcharacters"); cbn;
  [ split; [ split; reflexivity | intros n; elim n; reflexivity ] | ];
  split; [ split; discriminate | intros _; reflexivity ].

Lemma single_set_autocapitalization_type (v : Py.value) (self : TextInput.t) :
  (accepted_autocapitalization v
   <-> result (TextInput.set_autocapitalization_type v) self = Return tt)
  /\ (~ accepted_autocapitalization v
      -> TextInput.set_autocapitalization_type v self
         = (Raise (Py.ValueError autocapitalization_message), self)).
Proof.
  by_autocapitalization_cases v.
Qed.

Lemma multi_set_autocapitalization_type
    (v : Py.value) (self : MultilineTextInput.t) :
  (accepted_autocapitalization v
   <-> result (MultilineTextInput.set_autocapitalization_type v) self = Return tt)
  /\ (~ accepted_autocapitalization v
      -> MultilineTextInput.set_autocapitalization_type v self
         = (Raise (Py.ValueError autocapitalization_message), self)).
Proof.
  by_autocapitalization_cases v.
Qed.

Lemma message_names_the_words (w : string) :
  In w autocapitalization_words ->
  Py.contains (quoted w) autocapitalization_message = true.
Proof.
  unfold autocapitalization_words; cbn [In].
  intros [<- | [<- | [<- | [<- | []]]]]; vm_compute; reflexivity.
Qed.

(** C4: on either adapter [set_autocapitalization_type(v)] returns normally
    exactly when [v] is a string whose lower-case form is one of "none",
    "words", "sentences", "allcharacters"; for every other value, string or
    not, it raises [ValueError] with the message that quotes the four words,
    and the adapter, its native setting included, is as it was. *)
Theorem set_autocapitalization_type_accepts_exactly
    (v : Py.value) (single : TextInput.t) (multi : MultilineTextInput.t) :
  (accepted_autocapitalization v
   <-> result (TextInput.set_autocapitalization_type v) single = Return tt)
  /\ (accepted_autocapitalization v
      <-> result (MultilineTextInput.set_autocapitalization_type v) multi
          = Return tt)
  /\ (~ accepted_autocapitalization v
      -> TextInput.set_autocapitalization_type v single
         = (Raise (Py.ValueError autocapitalization_message), single)
         /\ MultilineTextInput.set_autocapitalization_type v multi
            = (Raise (Py.ValueError autocapitalization_message), multi))
  /\ (forall w, In w autocapitalization_words ->
        Py.contains (quoted w) autocapitalization_message = true).
Proof.
  destruct (single_set_autocapitalization_type v single) as [s1 s2].
  destruct (multi_set_autocapitalization_type v multi) as [m1 m2].
  repeat split; try apply s1; try apply m1; auto using message_names_the_words.
Qed.

(** What an accepted word selects, on a few spellings. *)
Example autocapitalization_mixed_case (self : TextInput.t) :
  UITextField.autocapitalizationType
    (TextInput.native
       (after (TextInput.set_autocapitalization_type (Py.VStr "AllCharacters")) self))
  = UITextAutocapitalizationType.AllCharacters
  /\ UITextView.autocapitalizationType
       (MultilineTextInput.native
          (after (MultilineTextInput.set_autocapitalization_type (Py.VStr "WORDS"))
             (MultilineTextInput.create Interface.fresh)))
     = UITextAutocapitalizationType.Words.
Proof.
  split; reflexivity.
Qed.

Example autocapitalization_rejects :
  ~ accepted_autocapitalization (Py.VStr "word")
  /\ ~ accepted_autocapitalization (Py.VStr " none")
  /\ ~ accepted_autocapitalization (Py.VBool true)
  /\ ~ accepted_autocapitalization Py.VNone.
Proof.
  repeat split;
    try (apply not_accepted_autocapitalization; reflexivity);
    rewrite accepted_autocapitalization_str, lower_in_words; discriminate.
Qed.

(** C5: on either adapter, for both booleans, [get_autocorrect()] returns
    what [set_autocorrect] was given and [get_spellchecker()] what
    [set_spellchecker] was given; given anything that is not a boolean the
    two setters raise [ValueError] and change nothing. *)
Theorem autocorrect_spellchecker_round_trip
    (b : bool) (v : Py.value)
    (single : TextInput.t) (multi : MultilineTextInput.t) :
  (result (TextInput.set_autocorrect (Py.VBool b) ;;
           TextInput.get_autocorrect)%method single = Return b
   /\ result (TextInput.set_spellchecker (Py.VBool b) ;;
              TextInput.get_spellchecker)%method single = Return b
   /\ result (MultilineTextInput.set_autocorrect (Py.VBool b) ;;
              MultilineTextInput.get_autocorrect)%method multi = Return b
   /\ result (MultilineTextInput.set_spellchecker (Py.VBool b) ;;
              MultilineTextInput.get_spellchecker)%method multi = Return b)
  /\ (Py.isinstance_bool v = false ->
      TextInput.set_autocorrect v single
      = (Raise (Py.ValueError "value can only be a boolean"), single)
      /\ TextInput.set_spellchecker v single
         = (Raise (Py.ValueError "value can only be a boolean"), single)
      /\ MultilineTextInput.set_autocorrect v multi
         = (Raise (Py.ValueError "value can only be a boolean"), multi)
      /\ MultilineTextInput.set_spellchecker v multi
         = (Raise (Py.ValueError "value can only be a boolean"), multi)).
Proof.
  split.
  - destruct b; repeat split.
  - destruct v; intros e; try discriminate e; repeat split.
Qed.

(** An integer is not a boolean for the setters, although Python lets it
    stand for one elsewhere. *)
Example set_autocorrect_rejects_one :
  result (MultilineTextInput.set_autocorrect (Py.VInt 1))
    (MultilineTextInput.create Interface.fresh)
  = Raise (Py.ValueError "value can only be a boolean").
Proof. reflexivity. Qed.

(** ** Scrolling *)

Lemma len_positive (s : string) : (0 <? Py.len s)%Z = negb (String.eqb s EmptyString).
Proof.
  destruct s as [|c s]; [reflexivity|].
  unfold Py.len; cbn [Py.characters].
  change (0 <? 0)%nat with false. rewrite andb_false_r. reflexivity.
Qed.




(** Characters are counted, not bytes: a text of one accented letter has its
    last character at 0. *)
Example scroll_to_bottom_counts_characters :
  Py.len "é" = 1%Z
  /\ Py.len "naïve ⚠" = 7%Z
  /\ UITextView.scrolled
       (MultilineTextInput.native
          (after MultilineTextInput.scroll_to_bottom
             (after (MultilineTextInput.set_value "é")
                (MultilineTextInput.create Interface.fresh))))
     = [NSRange.fields 0 1].
Proof. repeat split. Qed.


(** ** The placeholder of the multi-line adapter *)

(** C10: the multi-line [get_placeholder] returns [str] of the label's text
    as it is; on a created adapter whose placeholder was never set this is
    the string "None", where the single-line adapter returns the empty
    string. *)
Theorem multiline_get_placeholder_unset (interface : Interface.t) :
  (forall self : MultilineTextInput.t,
      MultilineTextInput.get_placeholder self
      = (Return (Py.str (UILabel.text (MultilineTextInput.placeholder_label self))),
         self))
  /\ result MultilineTextInput.get_placeholder (MultilineTextInput.create interface)
     = Return "None"
  /\ result TextInput.get_placeholder (TextInput.create interface)
     = Return EmptyString.
Proof.
  repeat split.
Qed.

(** ** Visibility of the placeholder *)

Lemma create_placeholder_invariant (interface : Interface.t) :
  placeholder_invariant (MultilineTextInput.create interface).
Proof. reflexivity. Qed.

(** Splits on whatever test the goal is stuck on. *)
Ltac split_on_tests :=
  repeat match goal with
         | |- context [if ?c then _ else _] => destruct c eqn:?; cbn
         | |- context [match ?v with Py.VNone => _ | _ => _ end] => destruct v; cbn
         end.

Section History.

Variable NSTextAlignment : alignment -> NSTextAlignment_t.

Lemma step_placeholder_invariant (o : MultilineTextInput.op) (self : MultilineTextInput.t) :
  placeholder_invariant self ->
  placeholder_invariant (MultilineTextInput.step NSTextAlignment o self).
Proof.
  unfold placeholder_invariant, MultilineTextInput.placeholder_visible,
    MultilineTextInput.text_is_empty.
  intros inv.
  destruct o; cbn;
    try exact inv;
    try (unfold MultilineTextInput.set_autocorrect,
           MultilineTextInput.set_spellchecker,
           MultilineTextInput.set_autocapitalization_type,
           MultilineTextInput.set_inlineprediction_type, after;
         split_on_tests; exact inv).
  - (* set_value *)
    rewrite len_positive.
    destruct (MultilineTextInput.has_focus self), (String.eqb value EmptyString);
      reflexivity.
  - (* the view gains focus *)
    unfold MultilineTextInput.gains_focus, after, bind, read; cbn.
    destruct (MultilineTextInput.has_focus self) eqn:f; cbn; rewrite ?f.
    + exact inv.
    + symmetry; apply andb_false_r.
  - (* the view loses focus *)
    unfold MultilineTextInput.resignFirstResponder, after, bind, read; cbn.
    destruct (MultilineTextInput.has_focus self) eqn:f; cbn; rewrite ?f.
    + rewrite len_positive, negb_involutive, andb_true_r. reflexivity.
    + exact inv.
  - (* the user edits the text *)
    unfold MultilineTextInput.user_edits, after, bind, read; cbn.
    destruct (MultilineTextInput.has_focus self) eqn:f; cbn; rewrite ?f.
    + rewrite inv, !andb_false_r. reflexivity.
    + exact inv.
  - (* a touch inside or outside the view *)
    unfold MultilineTextInput.pointInside_withEvent_,
      MultilineTextInput.resignFirstResponder, after, bind, read.
    destruct point_inside; cbn; [exact inv|].
    destruct (MultilineTextInput.has_focus self) eqn:f; cbn; rewrite ?f.
    + rewrite len_positive, negb_involutive, andb_true_r. reflexivity.
    + exact inv.
Qed.

Lemma run_placeholder_invariant (ops : list MultilineTextInput.op) :
  forall self : MultilineTextInput.t,
    placeholder_invariant self ->
    placeholder_invariant (MultilineTextInput.run NSTextAlignment ops self).
Proof.
  induction ops as [|o ops IH]; intros self inv; cbn.
  - exact inv.
  - apply IH, step_placeholder_invariant, inv.
Qed.

End History.

(** C1: on the multi-line adapter the placeholder is visible right after
    [create]; the begin-editing callback hides it; the end-editing callback
    shows it exactly when the text is empty; [set_value] shows it exactly
    when the new text is empty and [has_focus] is false; and after every
    history of method calls and toolkit events since [create] it is visible
    exactly when the text is empty and the view has no focus. *)
Theorem placeholder_visible_iff_empty_and_unfocused
    (NSTextAlignment : alignment -> NSTextAlignment_t) :
  (forall interface,
      MultilineTextInput.placeholder_visible (MultilineTextInput.create interface)
      = true)
  /\ (forall self,
         MultilineTextInput.placeholder_visible
           (after MultilineTextInput.textViewDidBeginEditing_ self)
         = false)
  /\ (forall self,
         MultilineTextInput.placeholder_visible
           (after MultilineTextInput.textViewDidEndEditing_ self)
         = MultilineTextInput.text_is_empty self)
  /\ (forall value self,
         MultilineTextInput.placeholder_visible
           (after (MultilineTextInput.set_value value) self)
         = String.eqb value EmptyString && negb (MultilineTextInput.has_focus self))
  /\ (forall interface ops,
         let self :=
           MultilineTextInput.run NSTextAlignment ops
             (MultilineTextInput.create interface) in
         MultilineTextInput.placeholder_visible self
         = MultilineTextInput.text_is_empty self
           && negb (MultilineTextInput.has_focus self)).
Proof.
  split; [reflexivity|].
  split; [reflexivity|].
  split.
  { intros self. unfold MultilineTextInput.placeholder_visible,
      MultilineTextInput.text_is_empty; cbn.
    rewrite len_positive. apply negb_involutive. }
  split.
  { intros value self. unfold MultilineTextInput.placeholder_visible; cbn.
    rewrite len_positive.
    destruct (MultilineTextInput.has_focus self), (String.eqb value EmptyString);
      reflexivity. }
  intros interface ops.
  apply (run_placeholder_invariant NSTextAlignment ops),
    create_placeholder_invariant.
Qed.

(** A history with an edit in it: focus, typing, blur, then the value is
    cleared from code. *)
Example placeholder_history :
  let self0 := MultilineTextInput.create Interface.fresh in
  let self1 :=
    MultilineTextInput.run (fun _ => NSNaturalTextAlignment)
      [MultilineTextInput.GainsFocus; MultilineTextInput.UserEdits "hi";
       MultilineTextInput.LosesFocus] self0 in
  let self2 := MultilineTextInput.step (fun _ => NSNaturalTextAlignment)
                 (MultilineTextInput.SetValue EmptyString) self1 in
  MultilineTextInput.placeholder_visible self0 = true
  /\ MultilineTextInput.placeholder_visible self1 = false
  /\ MultilineTextInput.placeholder_visible self2 = true.
Proof. repeat split. Qed.

(** * Further properties of the two adapters *)

(** ** Inline prediction *)

Lemma lower_in_prediction_words (s : string) :
  In (Py.lower s) inlineprediction_words
  <-> (String.eqb (Py.lower s) "yes"
       || String.eqb (Py.lower s) "no"
       || String.eqb (Py.lower s) "default") = true.
Proof.
  unfold inlineprediction_words; cbn [In].
  rewrite !orb_true_iff, !String.eqb_eq.
  intuition congruence.
Qed.

Lemma accepted_inlineprediction_str (s : string) :
  accepted_inlineprediction (Py.VStr s)
  <-> In (Py.lower s) inlineprediction_words.
Proof.
  split.
  - intros (s' & e & i). injection e as <-. exact i.
  - intros i. exists s. split; [reflexivity | exact i].
Qed.

Lemma not_accepted_inlineprediction (v : Py.value) :
  Py.isinstance_str v = false -> ~ accepted_inlineprediction v.
Proof.
  intros e (s & -> & _). discriminate e.
Qed.

Ltac by_inlineprediction_cases v :=
  destruct v as [ | b | n | s | r ];
  try (split;
       [ split;
         [ intros a; exfalso;
           revert a; apply not_accepted_inlineprediction; reflexivity
         | discriminate ]
       | intros _; reflexivity ]);
  rewrite accepted_inlineprediction_str, lower_in_prediction_words;
  cbn;
  destruct (String.eqb (Py.lower s) "yes"); cbn;
  [ split; [ split; reflexivity | intros n; elim n; reflexivity ] | ];
  destruct (String.eqb (Py.lower s) "no"); cbn;
  [ split; [ split; reflexivity | intros n; elim n; reflexivity ] | ];
  destruct (String.eqb (Py.lower s) "default"); cbn;
  [ split; [ split; reflexivity | intros n; elim n; reflexivity ] | ];
  split; [ split; discriminate | intros _; reflexivity ].

Lemma single_set_inlineprediction_type (v : Py.value) (self : TextInput.t) :
  (accepted_inlineprediction v
   <-> result (TextInput.set_inlineprediction_type v) self = Return tt)
  /\ (~ accepted_inlineprediction v
      -> TextInput.set_inlineprediction_type v self
         = (Raise (Py.ValueError inlineprediction_message), self)).
Proof.
  by_inlineprediction_cases v.
Qed.

Lemma multi_set_inlineprediction_type
    (v : Py.value) (self : MultilineTextInput.t) :
  (accepted_inlineprediction v
   <-> result (MultilineTextInput.set_inlineprediction_type v) self = Return tt)
  /\ (~ accepted_inlineprediction v
      -> MultilineTextInput.set_inlineprediction_type v self
         = (Raise (Py.ValueError inlineprediction_message), self)).
Proof.
  by_inlineprediction_cases v.
Qed.

(** X1: on either adapter [set_inlineprediction_type(v)] returns normally
    exactly when [v] is a string that reads "yes", "no" or "default" once
    lower-cased; for every other value it raises [ValueError] with the
    message naming "Yes", "No" and "Default", and the adapter is as it
    was. *)
Theorem set_inlineprediction_type_accepts_exactly
    (v : Py.value) (single : TextInput.t) (multi : MultilineTextInput.t) :
  (accepted_inlineprediction v
   <-> result (TextInput.set_inlineprediction_type v) single = Return tt)
  /\ (accepted_inlineprediction v
      <-> result (MultilineTextInput.set_inlineprediction_type v) multi
          = Return tt)
  /\ (~ accepted_inlineprediction v
      -> TextInput.set_inlineprediction_type v single
         = (Raise (Py.ValueError inlineprediction_message), single)
         /\ MultilineTextInput.set_inlineprediction_type v multi
            = (Raise (Py.ValueError inlineprediction_message), multi))
  /\ (forall w, In w ["Yes"; "No"; "Default"] ->
        Py.contains (quoted w) inlineprediction_message = true).
Proof.
  destruct (single_set_inlineprediction_type v single) as [s1 s2].
  destruct (multi_set_inlineprediction_type v multi) as [m1 m2].
  repeat split; try apply s1; try apply m1; auto.
  cbn [In]. intros w [<- | [<- | [<- | []]]]; vm_compute; reflexivity.
Qed.

(** ** The words and the native constants *)

(** X2: a string that lower-cases to one of the accepted words selects the
    native constant of that name: the four capitalisation types and the
    three prediction types, on both adapters. *)
Theorem words_select_their_constants
    (s : string) (single : TextInput.t) (multi : MultilineTextInput.t) :
  let cap1 :=
    UITextField.autocapitalizationType
      (TextInput.native
         (after (TextInput.set_autocapitalization_type (Py.VStr s)) single)) in
  let cap2 :=
    UITextView.autocapitalizationType
      (MultilineTextInput.native
         (after (MultilineTextInput.set_autocapitalization_type (Py.VStr s)) multi)) in
  let pred1 :=
    UITextField.inlinePredictionType
      (TextInput.native
         (after (TextInput.set_inlineprediction_type (Py.VStr s)) single)) in
  let pred2 :=
    UITextView.inlinePredictionType
      (MultilineTextInput.native
         (after (MultilineTextInput.set_inlineprediction_type (Py.VStr s)) multi)) in
  (Py.lower s = "none" ->
   cap1 = UITextAutocapitalizationType.none
   /\ cap2 = UITextAutocapitalizationType.none)
  /\ (Py.lower s = "words" ->
      cap1 = UITextAutocapitalizationType.Words
      /\ cap2 = UITextAutocapitalizationType.Words)
  /\ (Py.lower s = "sentences" ->
      cap1 = UITextAutocapitalizationType.Sentences
      /\ cap2 = UITextAutocapitalizationType.Sentences)
  /\ (Py.lower s = "allcharacters" ->
      cap1 = UITextAutocapitalizationType.AllCharacters
      /\ cap2 = UITextAutocapitalizationType.AllCharacters)
  /\ (Py.lower s = "yes" ->
      pred1 = UITextInlinePredictionType.Yes
      /\ pred2 = UITextInlinePredictionType.Yes)
  /\ (Py.lower s = "no" ->
      pred1 = UITextInlinePredictionType.No
      /\ pred2 = UITextInlinePredictionType.No)
  /\ (Py.lower s = "default" ->
      pred1 = UITextInlinePredictionType.Default
      /\ pred2 = UITextInlinePredictionType.Default).
Proof.
  cbv zeta.
  unfold TextInput.set_autocapitalization_type,
    MultilineTextInput.set_autocapitalization_type,
    TextInput.set_inlineprediction_type,
    MultilineTextInput.set_inlineprediction_type.
  repeat split; rewrite H; reflexivity.
Qed.

Lemma lower_ascii_idempotent (c : ascii) :
  Py.lower_ascii (Py.lower_ascii c) = Py.lower_ascii c.
Proof.
  destruct c as [[] [] [] [] [] [] [] []]; reflexivity.
Qed.

Lemma lower_idempotent (s : string) : Py.lower (Py.lower s) = Py.lower s.
Proof.
  induction s as [|c s IH]; cbn; [reflexivity|].
  rewrite lower_ascii_idempotent, IH. reflexivity.
Qed.

(** X3: the two string-valued setters do not look at the case of their
    argument: called with [s] they do exactly what they do with
    [s.lower()], on both adapters. *)
Theorem string_setters_ignore_case
    (s : string) (single : TextInput.t) (multi : MultilineTextInput.t) :
  TextInput.set_autocapitalization_type (Py.VStr s) single
  = TextInput.set_autocapitalization_type (Py.VStr (Py.lower s)) single
  /\ TextInput.set_inlineprediction_type (Py.VStr s) single
     = TextInput.set_inlineprediction_type (Py.VStr (Py.lower s)) single
  /\ MultilineTextInput.set_autocapitalization_type (Py.VStr s) multi
     = MultilineTextInput.set_autocapitalization_type (Py.VStr (Py.lower s)) multi
  /\ MultilineTextInput.set_inlineprediction_type (Py.VStr s) multi
     = MultilineTextInput.set_inlineprediction_type (Py.VStr (Py.lower s)) multi.
Proof.
  unfold TextInput.set_autocapitalization_type,
    MultilineTextInput.set_autocapitalization_type,
    TextInput.set_inlineprediction_type,
    MultilineTextInput.set_inlineprediction_type.
  rewrite !lower_idempotent. repeat split.
Qed.

(** ** Read-only *)

(** X4: on either adapter [get_readonly()] returns what [set_readonly] was
    given; the native flag behind it ([enabled], [editable]) holds the
    opposite. *)
Theorem set_readonly_get_readonly
    (b : bool) (single : TextInput.t) (multi : MultilineTextInput.t) :
  let single' := after (TextInput.set_readonly b) single in
  let multi' := after (MultilineTextInput.set_readonly b) multi in
  TextInput.get_readonly single' = (Return b, single')
  /\ UITextField.enabled (TextInput.native single') = negb b
  /\ MultilineTextInput.get_readonly multi' = (Return b, multi')
  /\ UITextView.editable (MultilineTextInput.native multi') = negb b.
Proof.
  cbv zeta.
  unfold TextInput.get_readonly, MultilineTextInput.get_readonly, bind, read, ret.
  cbn. rewrite negb_involutive. repeat split.
Qed.

(** ** The flags do not depend on each other *)

(** X5: each of the four flag setters of the single-line adapter, whatever
    it is given and whether it returns or raises, leaves the adapter as it
    was but for its own native setting. *)
Theorem single_flag_setters_touch_their_own_setting
    (v : Py.value) (self : TextInput.t) :
  let but_autocorrect :=
    TextInput.on_native
      (UITextField.set_autocorrectionType UITextAutocorrectionType.Default) in
  let but_spellchecker :=
    TextInput.on_native
      (UITextField.set_spellCheckingType UITextSpellCheckingType.Default) in
  let but_autocapitalization :=
    TextInput.on_native
      (UITextField.set_autocapitalizationType UITextAutocapitalizationType.none) in
  let but_inlineprediction :=
    TextInput.on_native
      (UITextField.set_inlinePredictionType UITextInlinePredictionType.Default) in
  but_autocorrect (after (TextInput.set_autocorrect v) self)
  = but_autocorrect self
  /\ but_spellchecker (after (TextInput.set_spellchecker v) self)
     = but_spellchecker self
  /\ but_autocapitalization (after (TextInput.set_autocapitalization_type v) self)
     = but_autocapitalization self
  /\ but_inlineprediction (after (TextInput.set_inlineprediction_type v) self)
     = but_inlineprediction self.
Proof.
  cbv zeta.
  unfold TextInput.set_autocorrect, TextInput.set_spellchecker,
    TextInput.set_autocapitalization_type, TextInput.set_inlineprediction_type,
    after.
  repeat split; destruct v; cbn; split_on_tests; reflexivity.
Qed.

(** X6: the same for the multi-line adapter; in particular no flag setter
    shows or hides the placeholder or reaches the interface. *)
Theorem multi_flag_setters_touch_their_own_setting
    (v : Py.value) (self : MultilineTextInput.t) :
  let but_autocorrect :=
    MultilineTextInput.on_native
      (UITextView.set_autocorrectionType UITextAutocorrectionType.Default) in
  let but_spellchecker :=
    MultilineTextInput.on_native
      (UITextView.set_spellCheckingType UITextSpellCheckingType.Default) in
  let but_autocapitalization :=
    MultilineTextInput.on_native
      (UITextView.set_autocapitalizationType UITextAutocapitalizationType.none) in
  let but_inlineprediction :=
    MultilineTextInput.on_native
      (UITextView.set_inlinePredictionType UITextInlinePredictionType.Default) in
  but_autocorrect (after (MultilineTextInput.set_autocorrect v) self)
  = but_autocorrect self
  /\ but_spellchecker (after (MultilineTextInput.set_spellchecker v) self)
     = but_spellchecker self
  /\ but_autocapitalization
       (after (MultilineTextInput.set_autocapitalization_type v) self)
     = but_autocapitalization self
  /\ but_inlineprediction
       (after (MultilineTextInput.set_inlineprediction_type v) self)
     = but_inlineprediction self.
Proof.
  cbv zeta.
  unfold MultilineTextInput.set_autocorrect, MultilineTextInput.set_spellchecker,
    MultilineTextInput.set_autocapitalization_type,
    MultilineTextInput.set_inlineprediction_type, after.
  repeat split; destruct v; cbn; split_on_tests; reflexivity.
Qed.

(** ** A new adapter *)

(** X7: [create] turns autocorrection and spell checking on in both
    adapters, leaves the single-line adapter valid, and tells the interface
    nothing. *)
Theorem create_defaults (interface : Interface.t) :
  let single := TextInput.create interface in
  let multi := MultilineTextInput.create interface in
  (result TextInput.get_autocorrect single = Return true
   /\ result TextInput.get_spellchecker single = Return true
   /\ result TextInput.is_valid single = Return true
   /\ TextInput.interface single = interface)
  /\ (result MultilineTextInput.get_autocorrect multi = Return true
      /\ result MultilineTextInput.get_spellchecker multi = Return true
      /\ MultilineTextInput.interface multi = interface).
Proof.
  repeat split.
Qed.

(** ** Histories of the single-line adapter *)

(** An observation that every step updates in a known way is updated that
    way along a whole history. *)
Lemma fold_left_observe {S O A : Type}
    (step : S -> O -> S) (f : S -> A) (g : A -> O -> A) :
  (forall s o, f (step s o) = g (f s) o) ->
  forall ops s, f (fold_left step ops s) = fold_left g ops (f s).
Proof.
  intros H ops; induction ops as [|o ops IH]; intros s; cbn.
  - reflexivity.
  - rewrite IH, H. reflexivity.
Qed.

Lemma fold_left_app_flat_map {O A : Type} (h : O -> list A) (ops : list O) :
  forall l, fold_left (fun l o => l ++ h o)%list ops l = (l ++ flat_map h ops)%list.
Proof.
  induction ops as [|o ops IH]; intros l; cbn.
  - symmetry; apply app_nil_r.
  - rewrite IH. symmetry; apply app_assoc.
Qed.

(** Unfolds the setters whose argument decides between branches. *)
Ltac single_step_cases o :=
  destruct o; cbn;
  unfold TextInput.set_autocorrect, TextInput.set_spellchecker,
    TextInput.set_autocapitalization_type, TextInput.set_inlineprediction_type,
    TextInput.set_text_align, after, bind, assign;
  cbn; split_on_tests; try reflexivity.

Section SingleHistory.

Variable NSTextAlignment : alignment -> NSTextAlignment_t.

(** X8: after any history of calls and callbacks, [is_valid()] is false
    exactly when, of the [set_error] and [clear_error] calls in it, the last
    was [set_error]; without such a call it is what it was.  Nothing else
    in the adapter, a change of value in particular, shows or hides the
    error annotation. *)
Theorem is_valid_after_history
    (ops : list TextInputHistory.op) (self : TextInput.t) :
  TextInput.is_valid (TextInputHistory.run NSTextAlignment ops self)
  = (Return
       (TextInputHistory.valid_after ops
          (UILabel.isHidden (TextInput.error_label self))),
     TextInputHistory.run NSTextAlignment ops self).
Proof.
  unfold TextInput.is_valid, read. f_equal. f_equal.
  unfold TextInputHistory.run, TextInputHistory.valid_after.
  apply (fold_left_observe
           (fun self o => TextInputHistory.step NSTextAlignment o self)
           (fun self => UILabel.isHidden (TextInput.error_label self))).
  intros s o. single_step_cases o.
Qed.

(** X9: after any history, [get_value()] returns the text of the last
    [set_value] or user edit in it, and the text there was when there is
    none. *)
Theorem get_value_after_history
    (ops : list TextInputHistory.op) (self : TextInput.t) :
  TextInput.get_value (TextInputHistory.run NSTextAlignment ops self)
  = (Return
       (TextInputHistory.value_after ops
          (UITextField.text (TextInput.native self))),
     TextInputHistory.run NSTextAlignment ops self).
Proof.
  unfold TextInput.get_value, bind, read, ret; cbn. f_equal. f_equal.
  unfold TextInputHistory.run, TextInputHistory.value_after.
  apply (fold_left_observe
           (fun self o => TextInputHistory.step NSTextAlignment o self)
           (fun self => UITextField.text (TextInput.native self))).
  intros s o. single_step_cases o.
Qed.

(** X10: along any history the interface hears, in order, one
    [_value_changed] for every [set_value] and every user edit, one
    [on_gain_focus] and one [on_lose_focus] for every begin and end of
    editing, one [on_confirm] for every return key, and nothing for any
    other call, a setter that raises included. *)
Theorem interface_hears_the_history
    (ops : list TextInputHistory.op) (self : TextInput.t) :
  Interface.calls (TextInput.interface (TextInputHistory.run NSTextAlignment ops self))
  = (Interface.calls (TextInput.interface self)
     ++ flat_map TextInputHistory.heard ops)%list.
Proof.
  rewrite <- fold_left_app_flat_map.
  unfold TextInputHistory.run.
  apply (fold_left_observe
           (fun self o => TextInputHistory.step NSTextAlignment o self)
           (fun self => Interface.calls (TextInput.interface self))).
  intros s o. single_step_cases o; symmetry; apply app_nil_r.
Qed.

End SingleHistory.

(** A history that shows all three: an error is set, the user types and
    confirms, the application overwrites the text. *)
Example single_history :
  let self :=
    TextInputHistory.run (fun _ => NSNaturalTextAlignment)
      [TextInputHistory.SetError "bad"; TextInputHistory.BeginsEditing;
       TextInputHistory.UserEdits "a"; TextInputHistory.ReturnKey;
       TextInputHistory.SetAutocorrect (Py.VInt 0);
       TextInputHistory.SetValue "b"; TextInputHistory.EndsEditing]
      (TextInput.create Interface.fresh) in
  result TextInput.is_valid self = Return false
  /\ result TextInput.get_value self = Return "b"
  /\ Interface.calls (TextInput.interface self)
     = [Interface.on_gain_focus; Interface._value_changed; Interface.on_confirm;
        Interface._value_changed; Interface.on_lose_focus].
Proof. repeat split. Qed.

(** ** What the multi-line adapter tells the interface *)

Lemma multi_step_hears (NSTextAlignment : alignment -> NSTextAlignment_t)
    (o : MultilineTextInput.op) (self : MultilineTextInput.t) :
  exists n : nat,
    (n <= 1)%nat
    /\ Interface.calls
         (MultilineTextInput.interface (MultilineTextInput.step NSTextAlignment o self))
       = (Interface.calls (MultilineTextInput.interface self)
          ++ repeat Interface.on_change n)%list.
Proof.
  assert (quiet : forall l : list Interface.call,
             exists n : nat, (n <= 1)%nat /\ l = (l ++ repeat Interface.on_change n)%list).
  { intros l. exists 0%nat. split; [lia | symmetry; apply app_nil_r]. }
  assert (once : forall l : list Interface.call,
             exists n : nat,
               (n <= 1)%nat
               /\ (l ++ [Interface.on_change])%list
                  = (l ++ repeat Interface.on_change n)%list).
  { intros l. exists 1%nat. split; [lia | reflexivity]. }
  destruct o; cbn;
    unfold MultilineTextInput.set_autocorrect, MultilineTextInput.set_spellchecker,
      MultilineTextInput.set_autocapitalization_type,
      MultilineTextInput.set_inlineprediction_type,
      MultilineTextInput.gains_focus, MultilineTextInput.resignFirstResponder,
      MultilineTextInput.user_edits, MultilineTextInput.pointInside_withEvent_,
      after, bind, read;
    cbn; split_on_tests; solve [apply quiet | apply once].
Qed.

(** X11: along any history of calls and toolkit events the multi-line
    adapter tells the interface of changes only, at most one per operation:
    it never reports a gain or loss of focus, nor a confirmation. *)
Theorem multiline_interface_hears_only_changes
    (NSTextAlignment : alignment -> NSTextAlignment_t)
    (ops : list MultilineTextInput.op) (self : MultilineTextInput.t) :
  exists n : nat,
    (n <= List.length ops)%nat
    /\ Interface.calls
         (MultilineTextInput.interface (MultilineTextInput.run NSTextAlignment ops self))
       = (Interface.calls (MultilineTextInput.interface self)
          ++ repeat Interface.on_change n)%list.
Proof.
  revert self; induction ops as [|o ops IH]; intros self.
  - exists 0%nat. split; [cbn; lia | symmetry; apply app_nil_r].
  - destruct (multi_step_hears NSTextAlignment o self) as (n1 & le1 & e1).
    destruct (IH (MultilineTextInput.step NSTextAlignment o self)) as (n2 & le2 & e2).
    exists (n1 + n2)%nat. split; [cbn; lia|].
    cbn [MultilineTextInput.run fold_left].
    unfold MultilineTextInput.run in e2. rewrite e2, e1.
    rewrite repeat_app. symmetry; apply app_assoc.
Qed.

(** ** A touch inside or outside the view *)

(** X12: [pointInside_withEvent_] answers what the superclass answered.  A
    touch inside changes nothing.  After a touch outside the view has no
    focus; text and interface are untouched; and if the view had focus, the
    placeholder is now visible exactly when the text is empty. *)
Theorem pointInside_withEvent_resigns_outside
    (point_inside : bool) (self : MultilineTextInput.t) :
  let self' := after (MultilineTextInput.pointInside_withEvent_ point_inside) self in
  result (MultilineTextInput.pointInside_withEvent_ point_inside) self
  = Return point_inside
  /\ (point_inside = true -> self' = self)
  /\ (point_inside = false ->
      MultilineTextInput.has_focus self' = false
      /\ MultilineTextInput.native self' = MultilineTextInput.native self
      /\ MultilineTextInput.interface self' = MultilineTextInput.interface self
      /\ (MultilineTextInput.has_focus self = true ->
          MultilineTextInput.placeholder_visible self'
          = MultilineTextInput.text_is_empty self)).
Proof.
  cbv zeta.
  unfold MultilineTextInput.pointInside_withEvent_,
    MultilineTextInput.resignFirstResponder,
    MultilineTextInput.placeholder_visible, MultilineTextInput.text_is_empty,
    result, after, bind, read.
  destruct point_inside; cbn.
  - repeat split; intros; discriminate.
  - destruct (MultilineTextInput.has_focus self) eqn:f; cbn;
      repeat split; intros; try discriminate; try assumption.
    rewrite len_positive. apply negb_involutive.
Qed.

(** ** Fonts and colours of the multi-line adapter *)

Section Style.

Variables Font Color TogaFont TogaColor : Type.
Variable native_color : TogaColor -> Color.
Variable impl_native : TogaFont -> Font.

Lemma style_step_keeps_font
    (o : MultilineStyle.op TogaFont TogaColor) (self : MultilineStyle.t Font Color) :
  MultilineStyle.placeholder_label_font self = MultilineStyle.native_font self ->
  let self' := MultilineStyle.step native_color impl_native o self in
  MultilineStyle.placeholder_label_font self' = MultilineStyle.native_font self'.
Proof.
  destruct o; cbn; auto.
Qed.

Lemma style_step_keeps_colour
    (o : MultilineStyle.op TogaFont TogaColor) (self : MultilineStyle.t Font Color) :
  MultilineStyle.placeholder_label_textColor self
  = MultilineStyle.native_textColor self ->
  let self' := MultilineStyle.step native_color impl_native o self in
  MultilineStyle.placeholder_label_textColor self'
  = MultilineStyle.native_textColor self'.
Proof.
  destruct o; cbn; auto.
Qed.

Lemma style_run_keeps
    (P : MultilineStyle.t Font Color -> Prop)
    (keeps : forall o self, P self -> P (MultilineStyle.step native_color impl_native o self))
    (ops : list (MultilineStyle.op TogaFont TogaColor)) :
  forall self, P self -> P (MultilineStyle.run native_color impl_native ops self).
Proof.
  induction ops as [|o ops IH]; intros self p; cbn.
  - exact p.
  - apply IH, keeps, p.
Qed.

(** X13: whatever fonts and colours are set after [create], in whatever
    order, the placeholder label has the font of the text. *)
Theorem placeholder_font_is_text_font
    (ops : list (MultilineStyle.op TogaFont TogaColor))
    (view : Font * Color) (label_textColor : Color) :
  let self :=
    MultilineStyle.run native_color impl_native ops
      (MultilineStyle.create view label_textColor) in
  MultilineStyle.placeholder_label_font self = MultilineStyle.native_font self.
Proof.
  cbv zeta.
  apply (style_run_keeps
           (fun self => MultilineStyle.placeholder_label_font self
                        = MultilineStyle.native_font self)).
  - intros o self. apply style_step_keeps_font.
  - reflexivity.
Qed.

(** X14: from the first [set_color] on, the placeholder label has the
    colour of the text, namely the native form of the colour set last. *)
Theorem placeholder_colour_is_text_colour
    (before after_ : list (MultilineStyle.op TogaFont TogaColor))
    (value : TogaColor) (self : MultilineStyle.t Font Color) :
  let self' :=
    MultilineStyle.run native_color impl_native
      (before ++ MultilineStyle.SetColor value :: after_) self in
  MultilineStyle.placeholder_label_textColor self'
  = MultilineStyle.native_textColor self'.
Proof.
  cbv zeta. unfold MultilineStyle.run. rewrite fold_left_app. cbn [fold_left].
  apply (style_run_keeps
           (fun self => MultilineStyle.placeholder_label_textColor self
                        = MultilineStyle.native_textColor self)).
  - intros o s. apply style_step_keeps_colour.
  - reflexivity.
Qed.

End Style.

(** ** The placeholder of the single-line adapter, in general *)

(** X15: on the single-line adapter [get_placeholder()] returns the string
    [set_placeholder] was given, for every string; the native placeholder
    is absent exactly when that string is empty, and the interface hears
    nothing of it. *)
Theorem single_placeholder_round_trip (s : string) (self : TextInput.t) :
  let self' := after (TextInput.set_placeholder s) self in
  TextInput.get_placeholder self' = (Return s, self')
  /\ (UITextField.placeholder (TextInput.native self') = None <-> s = EmptyString)
  /\ TextInput.interface self' = TextInput.interface self.
Proof.
  cbv zeta.
  unfold TextInput.get_placeholder, TextInput.set_placeholder, after, bind, read,
    ret, assign; cbn.
  destruct (String.eqb_spec s EmptyString) as [->|ne]; cbn.
  - repeat split.
  - destruct (String.eqb_spec s EmptyString); [contradiction|].
    repeat split; [discriminate | contradiction].
Qed.

(** ** A text that [scroll_to_bottom] has a last character for *)

